(** * The data-provider layer of nof1-tracker

    A shallow embedding of
    - [src/services/data-provider.ts]      (the [IDataProvider] interface),
    - [src/services/api-client.ts]         (the [ApiClient] adapter),
    - [src/services/custom-data-provider.example.ts]
                                           (the [CustomDataProviderExample] class),
    - the [TestCustomDataProvider] subclass of its test-suite,
    followed by the properties the specification states about them.

    Conventions of the embedding.
    - A method is a function from the world before the call to an outcome and
      the world after it.  An outcome is a returned value or a thrown error (a
      rejected promise); [await p] is sequencing in that monad.  Ticks are
      serialised, so no other code runs at an [await].
    - Arrays of accounts and account objects have identity: they live in a
      heap and are passed around by reference, as in JavaScript.
    - [Date.now()] reads the wall clock, a component of the world that no
      operation of this layer changes.
    - Clock readings, timestamps and ages are JavaScript numbers: IEEE-754
      doubles, with the arithmetic of doubles.
    - [this.getAccountTotals] is dispatched dynamically, so the inherited
      methods take the receiver's [getAccountTotals] as a parameter. *)

From Corelib Require Import PrimFloat.
From Stdlib Require Import QArith.
From stdpp Require Import base numbers strings list gmap.

Close Scope Q_scope.
Local Open Scope string_scope.
Local Open Scope list_scope.

(** ** JavaScript outcomes and the method monad *)

Inductive JsError : Type :=
| TypeError (message : string)
| Rejected (reason : string).

Inductive outcome (A : Type) : Type :=
| Return (a : A)
| Throw (e : JsError).
Arguments Return {A} a.
Arguments Throw {A} e.

Definition M (W A : Type) : Type := W -> outcome A * W.

Definition ret {W A : Type} (a : A) : M W A := fun w => (Return a, w).

Definition throw {W A : Type} (e : JsError) : M W A := fun w => (Throw e, w).

Definition bind {W A B : Type} (m : M W A) (k : A -> M W B) : M W B :=
  fun w =>
    match m w with
    | (Return a, w') => k a w'
    | (Throw e, w') => (Throw e, w')
    end.

Notation "'let*' x ':=' m 'in' k" := (bind m (fun x => k))
  (at level 10, x name, m at level 100, k at level 200).

(** ** Data model ([src/types/api], shapes as used by the provider and its tests) *)

Record ExitPlan : Type := {
  profit_target : Q;
  stop_loss : Q;
  invalidation_condition : string
}.

Record Position : Type := {
  symbol : string;
  entry_price : Q;
  quantity : Q;
  leverage : Q;
  current_price : Q;
  unrealized_pnl : Q;
  confidence : Q;
  entry_oid : Z;
  tp_oid : Z;
  sl_oid : Z;
  margin : Q;
  exit_plan : ExitPlan
}.

(** [positions] is a [Record<string, Position>]: a finite map keyed by symbol. *)
Record AgentAccount : Type := {
  id : string;
  model_id : string;
  since_inception_hourly_marker : Z;
  positions : gmap string Position
}.

(** *** The heap of snapshot objects

    A location holds either an [AgentAccount[]] (its elements are references
    to account objects) or an account object together with its position map. *)

Abbreviation loc := nat.

Inductive object : Type :=
| ArrayObject (elems : list loc)
| AccountObject (account : AgentAccount).

Definition array_at (h : gmap loc object) (l : loc) : option (list loc) :=
  match h !! l with
  | Some (ArrayObject elems) => Some elems
  | _ => None
  end.

Definition account_at (h : gmap loc object) (l : loc) : option AgentAccount :=
  match h !! l with
  | Some (AccountObject account) => Some account
  | _ => None
  end.

(** [DataProviderResponse]: [{ accountTotals: AgentAccount[] }]. *)
Record DataProviderResponse : Type := {
  accountTotals : loc
}.

(** The return type of [getCacheStats]. *)
Record CacheStatsEntry : Type := {
  url : string;
  age : float
}.

Record CacheStats : Type := {
  size : Z;
  entries : list CacheStatsEntry
}.

(** ** [IDataProvider] ([src/services/data-provider.ts]) *)

Module IDataProvider.
Record t (W : Type) : Type := {
  getAccountTotals : option Z -> M W DataProviderResponse;
  getAvailableAgents : M W (list string);
  getAgentData : string -> option Z -> M W (option loc);
  clearCache : M W unit;
  getCacheStats : M W CacheStats
}.
Arguments getAccountTotals {W} _ _ _.
Arguments getAvailableAgents {W} _ _.
Arguments getAgentData {W} _ _ _ _.
Arguments clearCache {W} _ _.
Arguments getCacheStats {W} _ _.
End IDataProvider.

(** ** [ApiClient] ([src/services/api-client.ts]) *)

Module ApiClient.
Section ApiClient.
Context {W : Type}.

(** [API_CONFIG] and [Nof1DataProvider] are imported from files outside this
    development; the constructor only passes them along. *)
Variable API_CONFIG_BASE_URL : string.
Variable API_CONFIG_TIMEOUT : Z.
Variable Nof1DataProvider : string -> Z -> IDataProvider.t W.

Record t : Type := {
  dataProvider : IDataProvider.t W
}.

(** [constructor(baseUrl = API_CONFIG.BASE_URL, timeout = API_CONFIG.TIMEOUT,
    dataProvider?)], whose body is
    [this.dataProvider = dataProvider || new Nof1DataProvider(baseUrl, timeout)]. *)
Definition constructor (baseUrl : option string) (timeout : option Z)
    (dataProvider : option (IDataProvider.t W)) : t :=
  let baseUrl := default API_CONFIG_BASE_URL baseUrl in
  let timeout := default API_CONFIG_TIMEOUT timeout in
  {| dataProvider :=
       match dataProvider with
       | Some provider => provider
       | None => Nof1DataProvider baseUrl timeout
       end |}.

Definition getAccountTotals (this : t) (marker : option Z) : M W DataProviderResponse :=
  let* response := IDataProvider.getAccountTotals (dataProvider this) marker in
  ret response.

Definition getAvailableAgents (this : t) : M W (list string) :=
  let* agents := IDataProvider.getAvailableAgents (dataProvider this) in
  ret agents.

Definition getAgentData (this : t) (agentId : string) (marker : option Z)
    : M W (option loc) :=
  let* agent := IDataProvider.getAgentData (dataProvider this) agentId marker in
  ret agent.

Definition clearCache (this : t) : M W unit :=
  let* _ := IDataProvider.clearCache (dataProvider this) in
  ret tt.

Definition getCacheStats (this : t) : M W CacheStats :=
  IDataProvider.getCacheStats (dataProvider this).
End ApiClient.
End ApiClient.

(** ** JavaScript containers used by the provider *)

(** [Map<string, V>]: keys are unique and kept in insertion order. *)
Fixpoint Map_set {V : Type} (key : string) (value : V) (m : list (string * V))
    : list (string * V) :=
  match m with
  | [] => [(key, value)]
  | (key', value') :: rest =>
      if String.eqb key' key then (key', value) :: rest
      else (key', value') :: Map_set key value rest
  end.

Definition Map_clear {V : Type} (m : list (string * V)) : list (string * V) := [].

Definition Map_size {V : Type} (m : list (string * V)) : Z := Z.of_nat (length m).

Definition Map_entries {V : Type} (m : list (string * V)) : list (string * V) := m.

(** [Set<string>]: [add] keeps the first insertion of a value; [Array.from]
    lists the members in insertion order. *)
Definition Set_add (value : string) (s : list string) : list string :=
  if existsb (String.eqb value) s then s else s ++ [value].

Definition Array_from (s : list string) : list string := s.

(** The values the cache holds.  The map is declared [Map<string, any>]; the
    only writer in the repository stores [{ data, timestamp }] records with a
    numeric [timestamp], and [getCacheStats] guards against an absent one.
    The embedding types the cached values as such records; a cached [null]
    or [undefined], on which reading [entry.timestamp] throws a [TypeError],
    and a [timestamp] that is not a number are outside it. *)
#[local] Unset Elimination Schemes.
Inductive any : Type :=
| AnyString (s : string)
| AnyNumber (n : Z)
| AnyObject (fields : list (string * any)).
#[local] Set Elimination Schemes.

Record CacheEntry : Type := {
  data : any;
  timestamp : option float
}.

(** The numbers that are falsy: [0], [-0] and [NaN]. *)
Definition falsy (n : float) : bool :=
  (PrimFloat.eqb n 0%float || PrimFloat.is_nan n)%bool.

(** [timestamp || 0]: [undefined] and the falsy numbers give [0]. *)
Definition or_0 (timestamp : option float) : float :=
  match timestamp with
  | Some t => if falsy t then 0%float else t
  | None => 0%float
  end.

(** ** The world a provider runs in *)

(** The private fields of a [CustomDataProviderExample]; [ext] holds the
    fields a subclass adds ([unit] for the class itself). *)
Record Fields (Ext : Type) : Type := {
  apiEndpoint : string;
  apiKey : option string;
  cache : list (string * CacheEntry);
  ext : Ext
}.
Arguments apiEndpoint {Ext} _.
Arguments apiKey {Ext} _.
Arguments cache {Ext} _.
Arguments ext {Ext} _.

Record World (Ext : Type) : Type := {
  heap : gmap loc object;
  now : float;
  this : Fields Ext
}.
Arguments heap {Ext} _.
Arguments now {Ext} _.
Arguments this {Ext} _.

Definition set_heap {Ext : Type} (h : gmap loc object) (w : World Ext) : World Ext :=
  {| heap := h; now := now w; this := this w |}.

Definition set_cache {Ext : Type} (c : list (string * CacheEntry)) (w : World Ext)
    : World Ext :=
  {| heap := heap w; now := now w;
     this := {| apiEndpoint := apiEndpoint (this w); apiKey := apiKey (this w);
                cache := c; ext := ext (this w) |} |}.

Definition set_ext {Ext : Type} (e : Ext) (w : World Ext) : World Ext :=
  {| heap := heap w; now := now w;
     this := {| apiEndpoint := apiEndpoint (this w); apiKey := apiKey (this w);
                cache := cache (this w); ext := e |} |}.

Section Primitives.
Context {Ext : Type}.

(** Evaluating an array or object literal allocates a new object. *)
Definition alloc (o : object) : M (World Ext) loc :=
  fun w =>
    let l := fresh (dom (heap w)) in
    (Return l, set_heap (<[l := o]> (heap w)) w).

(** Using a value as an array, as [for … of] and [.find] do. *)
Definition get_array (l : loc) : M (World Ext) (list loc) :=
  fun w =>
    match array_at (heap w) l with
    | Some elems => ret elems w
    | None => throw (TypeError "not iterable") w
    end.

(** Reading [account.model_id]. *)
Definition get_model_id (l : loc) : M (World Ext) string :=
  fun w =>
    match account_at (heap w) l with
    | Some account => ret (model_id account) w
    | None => throw (TypeError "cannot read properties of undefined") w
    end.

(** [Date.now()]. *)
Definition Date_now : M (World Ext) float := fun w => (Return (now w), w).

(** [Array.prototype.find]: the first element, in index order, for which the
    callback answers true; [undefined] when there is none. *)
Fixpoint Array_find (callback : loc -> M (World Ext) bool) (elems : list loc)
    : M (World Ext) (option loc) :=
  match elems with
  | [] => ret None
  | element :: rest =>
      let* found := callback element in
      if found then ret (Some element) else Array_find callback rest
  end.

(** [for (const x of elems) body], threading the loop-carried value. *)
Fixpoint for_of {A : Type} (elems : list loc) (body : loc -> A -> M (World Ext) A)
    (acc : A) : M (World Ext) A :=
  match elems with
  | [] => ret acc
  | element :: rest =>
      let* acc' := body element acc in
      for_of rest body acc'
  end.
End Primitives.

(** ** [CustomDataProviderExample] ([src/services/custom-data-provider.example.ts]) *)

Module CustomDataProviderExample.

Definition constructor (apiEndpoint : string) (apiKey : option string) : Fields unit :=
  {| apiEndpoint := apiEndpoint; apiKey := apiKey; cache := []; ext := tt |}.

Section Methods.
Context {Ext : Type}.

(** The body is the conversion template with nothing filled in: the array
    literal is empty, and [marker] is not used. *)
Definition getAccountTotals (marker : option Z) : M (World Ext) DataProviderResponse :=
  let* accountTotals := alloc (ArrayObject []) in
  ret {| accountTotals := accountTotals |}.

(** The receiver's [getAccountTotals] (the class's own or an override). *)
Variable this_getAccountTotals : option Z -> M (World Ext) DataProviderResponse.

Definition getAvailableAgents : M (World Ext) (list string) :=
  let* response := this_getAccountTotals None in
  let* accounts := get_array (accountTotals response) in
  let* agentIds :=
    for_of accounts
      (fun account agentIds =>
         let* model_id := get_model_id account in
         ret (Set_add model_id agentIds))
      [] in
  ret (Array_from agentIds).

Definition getAgentData (agentId : string) (marker : option Z)
    : M (World Ext) (option loc) :=
  let* response := this_getAccountTotals marker in
  let* accounts := get_array (accountTotals response) in
  let* agent :=
    Array_find
      (fun account =>
         let* model_id := get_model_id account in
         ret (String.eqb model_id agentId))
      accounts in
  ret (match agent with Some account => Some account | None => None end).

Definition clearCache : M (World Ext) unit :=
  fun w => (Return tt, set_cache (Map_clear (cache (this w))) w).

Definition getCacheStats : M (World Ext) CacheStats :=
  let* now := Date_now in
  fun w =>
    let entries :=
      map (fun '(url, entry) =>
             {| url := url; age := (now - or_0 (timestamp entry))%float |})
          (Map_entries (cache (this w))) in
    (Return {| size := Map_size (cache (this w)); entries := entries |}, w).
End Methods.

(** The object: the class's own [getAccountTotals] is the receiver's. *)
Definition provider : IDataProvider.t (World unit) :=
  {| IDataProvider.getAccountTotals := getAccountTotals;
     IDataProvider.getAvailableAgents := getAvailableAgents getAccountTotals;
     IDataProvider.getAgentData := getAgentData getAccountTotals;
     IDataProvider.clearCache := clearCache;
     IDataProvider.getCacheStats := getCacheStats |}.
End CustomDataProviderExample.

(** ** [TestCustomDataProvider] (the subclass of the test-suite) *)

Module TestCustomDataProvider.

(** [private mockAccountTotals: AgentAccount[]], a reference to an array. *)
Record Ext : Type := {
  mockAccountTotals : loc
}.

(** [new TestCustomDataProvider(apiEndpoint, apiKey?)]: the field initialiser
    [mockAccountTotals = []] allocates the initial array. *)
Definition constructor (apiEndpoint : string) (apiKey : option string)
    (h : gmap loc object) : gmap loc object * Fields Ext :=
  let l := fresh (dom h) in
  (<[l := ArrayObject []]> h,
   {| apiEndpoint := apiEndpoint; apiKey := apiKey; cache := [];
      ext := {| mockAccountTotals := l |} |}).

Definition setMockAccountTotals (data : loc) : M (World Ext) unit :=
  fun w => (Return tt, set_ext {| mockAccountTotals := data |} w).

Definition getAccountTotals (marker : option Z) : M (World Ext) DataProviderResponse :=
  fun w => (Return {| accountTotals := mockAccountTotals (ext (this w)) |}, w).

(** [this.cache.set(url, { data, timestamp: Date.now() - 5000 })]. *)
Definition addCacheEntry (url : string) (data : any) : M (World Ext) unit :=
  let* now := Date_now in
  fun w =>
    (Return tt,
     set_cache (Map_set url {| data := data; timestamp := Some (now - 5000)%float |}
                        (cache (this w))) w).

Definition provider : IDataProvider.t (World Ext) :=
  {| IDataProvider.getAccountTotals := getAccountTotals;
     IDataProvider.getAvailableAgents :=
       CustomDataProviderExample.getAvailableAgents getAccountTotals;
     IDataProvider.getAgentData := CustomDataProviderExample.getAgentData getAccountTotals;
     IDataProvider.clearCache := CustomDataProviderExample.clearCache;
     IDataProvider.getCacheStats := CustomDataProviderExample.getCacheStats |}.
End TestCustomDataProvider.

(** ** Observing a provider *)

(** The value a response denotes: the accounts its array refers to, in order.
    This is what the test-suite compares with [toEqual]. *)
Definition snapshot_of (h : gmap loc object) (response : DataProviderResponse)
    : option (list AgentAccount) :=
  match array_at h (accountTotals response) with
  | Some elems => mapM (account_at h) elems
  | None => None
  end.

(** A recording stub, written for the statements below and not part of the
    repository: a receiver whose [getAccountTotals] appends the marker it is
    called with to a log (as a [jest.fn] mock does) and answers with the array
    [reply marker]. *)
Module RecordingProvider.
Definition getAccountTotals (reply : option Z -> loc) (marker : option Z)
    : M (World (list (option Z))) DataProviderResponse :=
  fun w =>
    (Return {| accountTotals := reply marker |}, set_ext (ext (this w) ++ [marker]) w).
End RecordingProvider.

(** ** Fixtures of the test-suite *)

Module Fixtures.
(** [Date.now()] at the time the fixtures are built. *)
Definition clock : Z := 1700000000000.

(** The clock reading of the fixtures' worlds. *)
Definition time : float := 1700000000000%float.

Definition BTC : Position :=
  {| symbol := "BTC"; entry_price := 50000%Q; quantity := (1 # 10)%Q;
     leverage := 1%Q; current_price := 51000%Q; unrealized_pnl := 100%Q;
     confidence := (8 # 10)%Q; entry_oid := 12345; tp_oid := 0; sl_oid := 0;
     margin := 5000%Q;
     exit_plan := {| profit_target := 52000%Q; stop_loss := 48000%Q;
                     invalidation_condition := "Price below 48000" |} |}.

Definition account (id model_id : string) (positions : gmap string Position)
    : AgentAccount :=
  {| id := id; model_id := model_id; since_inception_hourly_marker := clock;
     positions := positions |}.

(** [new CustomDataProviderExample('https://test-api.com', 'test-api-key')]. *)
Definition provider : World unit :=
  {| heap := ∅; now := time;
     this := CustomDataProviderExample.constructor "https://test-api.com"
               (Some "test-api-key") |}.

(** [new TestCustomDataProvider('https://test-api.com')], in an empty heap. *)
Definition new_provider : World TestCustomDataProvider.Ext :=
  let '(h, fields) := TestCustomDataProvider.constructor "https://test-api.com" None ∅ in
  {| heap := h; now := time; this := fields |}.

(** Evaluating the elements of the array literal [mockAccounts], left to right. *)
Fixpoint account_literals (accounts : list AgentAccount)
    : M (World TestCustomDataProvider.Ext) (list loc) :=
  match accounts with
  | [] => ret []
  | account :: rest =>
      let* l := alloc (AccountObject account) in
      let* ls := account_literals rest in
      ret (l :: ls)
  end.

(** [const mockAccounts = [...]; testProvider.setMockAccountTotals(mockAccounts)]. *)
Definition install_mock (accounts : list AgentAccount)
    : M (World TestCustomDataProvider.Ext) unit :=
  let* elems := account_literals accounts in
  let* mockAccounts := alloc (ArrayObject elems) in
  TestCustomDataProvider.setMockAccountTotals mockAccounts.

(** 'should return unique agent IDs when agents exist': three accounts, the
    first two sharing a [model_id].  The accounts are at locations 1, 2 and 3
    and the array at 4 (location 0 holds the provider's initial empty array). *)
Definition unique_ids : World TestCustomDataProvider.Ext :=
  (install_mock [account "agent-1" "agent-model-1" ∅;
                 account "agent-2" "agent-model-1" ∅;
                 account "agent-3" "agent-model-2" ∅] new_provider).2.

(** 'should return agent data when agent exists': the accounts are at
    locations 1 and 2 and the array at 3. *)
Definition agent_exists : World TestCustomDataProvider.Ext :=
  (install_mock [account "agent-1" "target-agent-id" {[ "BTC" := BTC ]};
                 account "agent-2" "other-agent-id" ∅] new_provider).2.

(** 'should return null when agent exists but has different model_id'. *)
Definition different_model_id : World TestCustomDataProvider.Ext :=
  (install_mock [account "agent-1" "different-agent-id" ∅] new_provider).2.

(** 'should track cache entries with timestamps correctly':
    [testProvider.addCacheEntry('test-url', { data: 'test-data' })]. *)
Definition one_cached_url : World TestCustomDataProvider.Ext :=
  (TestCustomDataProvider.addCacheEntry "test-url"
     (AnyObject [("data", AnyString "test-data")]) new_provider).2.


(** A feed with history, for the recording stub: the current snapshot (the
    array at 4) holds three accounts, the snapshot for any marker (the array
    at 5) the third and the second of them; nothing has been recorded yet. *)
Definition history : World (list (option Z)) :=
  {| heap := <[1 := AccountObject (account "agent-1" "agent-model-1" ∅)]>
             (<[2 := AccountObject (account "agent-2" "agent-model-1" ∅)]>
              (<[3 := AccountObject (account "agent-3" "agent-model-2" ∅)]>
               (<[4 := ArrayObject [1; 2; 3]]>
                (<[5 := ArrayObject [3; 2]]> ∅))));
     now := time;
     this := {| apiEndpoint := "https://test-api.com"; apiKey := None; cache := [];
                ext := [] |} |}.

Definition history_reply (marker : option Z) : loc :=
  match marker with
  | Some _ => 5
  | None => 4
  end.
End Fixtures.

(** ** Further code of the repository *)

Section MorePrimitives.
Context {Ext : Type}.

(** [Array.prototype.map]: the callback's results, in index order. *)
Fixpoint Array_map {B : Type} (callback : loc -> M (World Ext) B) (elems : list loc)
    : M (World Ext) (list B) :=
  match elems with
  | [] => ret []
  | element :: rest =>
      let* value := callback element in
      let* values := Array_map callback rest in
      ret (value :: values)
  end.
End MorePrimitives.

(** [for (let i = 0; i < n; i++) body]. *)
Fixpoint for_count {W : Type} (n : nat) (body : M W unit) : M W unit :=
  match n with
  | O => ret tt
  | S n' =>
      let* _ := body in
      for_count n' body
  end.

(** [new Set(values)]: the values are added in iteration order. *)
Definition Set_from (values : list string) : list string :=
  foldl (fun s value => Set_add value s) [] values.

(** [[...s]]: the members of a set, in insertion order. *)
Definition spread (s : list string) : list string := s.

(** The provider sketched in [docs/data-provider-abstraction.md]; of its
    methods, [getAvailableAgents] is the one written differently from the
    example class. *)
Module MyCustomDataProvider.
Section Methods.
Context {Ext : Type}.
Variable this_getAccountTotals : option Z -> M (World Ext) DataProviderResponse.

Definition getAvailableAgents : M (World Ext) (list string) :=
  let* response := this_getAccountTotals None in
  let* accounts := get_array (accountTotals response) in
  let* model_ids := Array_map (fun a => get_model_id a) accounts in
  ret (spread (Set_from model_ids)).
End Methods.
End MyCustomDataProvider.

(** The loop of the test 'should not leak memory during cache operations',
    with its bound as a parameter:
    [for (let i = 0; i < n; i++) { provider.getCacheStats(); provider.clearCache(); }]. *)
Definition cache_operations {W : Type} (provider : IDataProvider.t W) (n : nat) : M W unit :=
  for_count n
    (let* _ := IDataProvider.getCacheStats provider in
     IDataProvider.clearCache provider).

(** Time passing between two calls: the clock shows the reading [now'] and
    nothing else changes. *)
Definition clock_reads {Ext : Type} (now' : float) (w : World Ext) : World Ext :=
  {| heap := heap w; now := now'; this := this w |}.

(** A computation is read-only when it leaves every world as it found it,
    whatever its outcome. *)
Definition read_only {W A : Type} (m : M W A) : Prop := forall w, (m w).2 = w.

(** * Properties *)

(** ** The monad *)

Lemma bind_ret_r {W A : Type} (m : M W A) (w : W) : (let* a := m in ret a) w = m w.
Proof.
  unfold bind, ret. destruct (m w) as [[a|e] w']; reflexivity.
Qed.

Lemma bind_Return {W A B : Type} (m : M W A) (k : A -> M W B) (w w' : W) (a : A) :
  m w = (Return a, w') -> (let* x := m in k x) w = k a w'.
Proof. unfold bind. intros ->. reflexivity. Qed.

Lemma read_only_ret {W A : Type} (a : A) : read_only (@ret W A a).
Proof. intros w. reflexivity. Qed.

Lemma read_only_bind {W A B : Type} (m : M W A) (k : A -> M W B) :
  read_only m -> (forall a, read_only (k a)) -> read_only (let* x := m in k x).
Proof.
  intros Hm Hk w. unfold bind. specialize (Hm w).
  destruct (m w) as [[a|e] w']; simpl in Hm; subst w'; [apply Hk | reflexivity].
Qed.

(** The world after [m] followed by a read-only continuation is the world
    after [m]. *)
Lemma bind_read_only_world {W A B : Type} (m : M W A) (k : A -> M W B) (w : W) :
  (forall a, read_only (k a)) -> ((let* x := m in k x) w).2 = (m w).2.
Proof.
  intros Hk. unfold bind. destruct (m w) as [[a|e] w']; [apply Hk | reflexivity].
Qed.

(** ** The primitives *)

Section PrimitiveFacts.
Context {Ext : Type}.
Implicit Types (w : World Ext) (l : loc) (elems : list loc).

Lemma read_only_get_array l : read_only (@get_array Ext l).
Proof. intros w. unfold get_array. destruct (array_at _ _); reflexivity. Qed.

Lemma read_only_get_model_id l : read_only (@get_model_id Ext l).
Proof. intros w. unfold get_model_id. destruct (account_at _ _); reflexivity. Qed.

Lemma read_only_Array_find (callback : loc -> M (World Ext) bool) elems :
  (forall l, read_only (callback l)) -> read_only (Array_find callback elems).
Proof.
  intros Hcb. induction elems as [|l elems IH]; simpl.
  - apply read_only_ret.
  - apply read_only_bind; [apply Hcb|]. intros []; [apply read_only_ret | exact IH].
Qed.

Lemma read_only_for_of {A : Type} (body : loc -> A -> M (World Ext) A) elems :
  (forall l acc, read_only (body l acc)) -> forall acc, read_only (for_of elems body acc).
Proof.
  intros Hbody. induction elems as [|l elems IH]; intros acc; simpl.
  - apply read_only_ret.
  - apply read_only_bind; [apply Hbody | exact IH].
Qed.

(** A new object is placed at a location that held nothing, and every
    object that existed stays as it was. *)
Lemma alloc_spec (o : object) w :
  exists l, alloc o w = (Return l, set_heap (<[l := o]> (heap w)) w)
            /\ heap w !! l = None
            /\ heap w ⊆ <[l := o]> (heap w).
Proof.
  exists (fresh (dom (heap w))).
  assert (heap w !! fresh (dom (heap w)) = None) as Hfresh
    by (apply not_elem_of_dom, is_fresh).
  split; [reflexivity | split; [exact Hfresh | by apply insert_subseteq]].
Qed.
End PrimitiveFacts.

(** ** [Set] and [Map] *)

Lemma elem_of_Set_add (value x : string) (s : list string) :
  x ∈ Set_add value s <-> x = value \/ x ∈ s.
Proof.
  unfold Set_add. destruct (existsb (String.eqb value) s) eqn:Hmem.
  - apply existsb_exists in Hmem as (y & Hy & Heq).
    apply String.eqb_eq in Heq as <-. apply list_elem_of_In in Hy.
    split; [by right | by intros [->|?]].
  - rewrite elem_of_app, list_elem_of_singleton. tauto.
Qed.

Lemma NoDup_Set_add (value : string) (s : list string) :
  NoDup s -> NoDup (Set_add value s).
Proof.
  intros Hs. unfold Set_add. destruct (existsb (String.eqb value) s) eqn:Hmem; [done|].
  apply NoDup_app. split; [done|]. split; [|apply NoDup_singleton].
  intros x Hx ->%list_elem_of_singleton.
  assert (existsb (String.eqb value) s = true) as Habs; [|congruence].
  apply existsb_exists. exists value. split; [by apply list_elem_of_In | apply String.eqb_refl].
Qed.

Lemma or_0_truthy (t : float) : falsy t = false -> or_0 (Some t) = t.
Proof. intros Ht. unfold or_0. by rewrite Ht. Qed.

(** ** Searching and scanning a snapshot *)

Section SnapshotFacts.
Context {Ext : Type}.
Implicit Types (w : World Ext) (l : loc) (elems : list loc) (agentId : string).

Lemma model_id_test w l agentId (a : AgentAccount) :
  account_at (heap w) l = Some a ->
  (let* model_id := get_model_id l in ret (String.eqb model_id agentId)) w
  = (Return (String.eqb (model_id a) agentId), w).
Proof. intros Ha. unfold bind, get_model_id, ret. rewrite Ha. reflexivity. Qed.

(** [find] with the [model_id] test on an array of accounts. *)
Lemma find_by_model_id w agentId elems :
  Forall (fun l => is_Some (account_at (heap w) l)) elems ->
  exists agent,
    Array_find (fun account =>
                  let* model_id := get_model_id account in
                  ret (String.eqb model_id agentId)) elems w
    = (Return agent, w)
    /\ (forall l, agent = Some l ->
          l ∈ elems /\ model_id <$> account_at (heap w) l = Some agentId)
    /\ (agent = None <->
        forall l a, l ∈ elems -> account_at (heap w) l = Some a -> model_id a <> agentId).
Proof.
  induction 1 as [|l elems [a Ha] _ (agent & Hrun & Hsome & Hnone)]; cbn [Array_find].
  - exists None. split; [reflexivity|]. split; [discriminate|].
    split; [|reflexivity]. intros _ l a Hl. by apply elem_of_nil in Hl.
  - erewrite bind_Return by (apply model_id_test; exact Ha).
    destruct (String.eqb_spec (model_id a) agentId) as [Heq|Hne].
    + exists (Some l). split; [reflexivity|]. split.
      * intros l' [= <-]. split; [left|]. rewrite Ha. simpl. by rewrite Heq.
      * split; [discriminate|]. intros Hall. exfalso.
        apply (Hall l a); [left | exact Ha | exact Heq].
    + exists agent. split; [exact Hrun|]. split.
      * intros l' Hl'. destruct (Hsome l' Hl') as [Hin Hid]. split; [by right | exact Hid].
      * rewrite Hnone. split.
        -- intros Hall l' a' [->|Hin]%elem_of_cons Ha'; [|by eapply Hall].
           rewrite Ha in Ha'. by injection Ha' as <-.
        -- intros Hall l' a' Hin. apply Hall. by right.
Qed.

(** [find] stops at the first account that passes the test; what follows it
    in the array is not looked at. *)
Lemma find_first_by_model_id w agentId (pre post : list loc) l (a : AgentAccount) :
  Forall (fun l' => exists a', account_at (heap w) l' = Some a' /\ model_id a' <> agentId)
         pre ->
  account_at (heap w) l = Some a ->
  model_id a = agentId ->
  Array_find (fun account =>
                let* model_id := get_model_id account in
                ret (String.eqb model_id agentId)) (pre ++ l :: post) w
  = (Return (Some l), w).
Proof.
  intros Hpre Ha Hid.
  induction Hpre as [|l' pre (a' & Ha' & Hne) _ IH]; cbn [Array_find app].
  - erewrite bind_Return by (apply model_id_test; exact Ha).
    apply String.eqb_eq in Hid. rewrite Hid. reflexivity.
  - erewrite bind_Return by (apply model_id_test; exact Ha').
    apply String.eqb_neq in Hne. rewrite Hne. exact IH.
Qed.

(** The loop of [getAvailableAgents] over an array of accounts. *)
Lemma collect_model_ids w elems (accounts : list AgentAccount) :
  Forall2 (fun l a => account_at (heap w) l = Some a) elems accounts ->
  forall acc, NoDup acc ->
  exists agentIds,
    for_of elems (fun account agentIds =>
                    let* model_id := get_model_id account in
                    ret (Set_add model_id agentIds)) acc w
    = (Return agentIds, w)
    /\ NoDup agentIds
    /\ forall x, x ∈ agentIds <-> x ∈ acc \/ x ∈ model_id <$> accounts.
Proof.
  induction 1 as [|l a elems accounts Ha _ IH]; intros acc Hacc; cbn [for_of].
  - exists acc. split; [reflexivity|]. split; [exact Hacc|].
    intros x. rewrite fmap_nil, elem_of_nil. tauto.
  - assert ((let* model_id := get_model_id l in ret (Set_add model_id acc)) w
            = (Return (Set_add (model_id a) acc), w)) as Hbody.
    { unfold bind, get_model_id, ret. rewrite Ha. reflexivity. }
    rewrite (bind_Return _ _ _ _ _ Hbody).
    destruct (IH (Set_add (model_id a) acc)) as (agentIds & Hrun & Hnodup & Hmem).
    { by apply NoDup_Set_add. }
    exists agentIds. split; [exact Hrun|]. split; [exact Hnodup|].
    intros x. rewrite Hmem, elem_of_Set_add, fmap_cons, elem_of_cons. tauto.
Qed.

Lemma snapshot_of_Some (h : gmap loc object) response (accounts : list AgentAccount) :
  snapshot_of h response = Some accounts ->
  exists elems, array_at h (accountTotals response) = Some elems
                /\ Forall2 (fun l a => account_at h l = Some a) elems accounts.
Proof.
  unfold snapshot_of. destruct (array_at h (accountTotals response)) as [elems|]; [|done].
  intros Hm. exists elems. split; [reflexivity|]. by apply mapM_Some.
Qed.

Lemma get_array_Return w l elems :
  array_at (heap w) l = Some elems -> get_array l w = (Return elems, w).
Proof. intros Harr. unfold get_array. rewrite Harr. reflexivity. Qed.
End SnapshotFacts.

(** ** The expectations of the test-suite *)

Example test_no_agents :
  (IDataProvider.getAvailableAgents CustomDataProviderExample.provider Fixtures.provider).1
  = Return [].
Proof. vm_compute. reflexivity. Qed.

Example test_non_existent_agent :
  (IDataProvider.getAgentData CustomDataProviderExample.provider "non-existent-agent" None
     Fixtures.provider).1 = Return None
  /\ (IDataProvider.getAgentData CustomDataProviderExample.provider "agent-id" (Some 12345%Z)
        Fixtures.provider).1 = Return None.
Proof. split; vm_compute; reflexivity. Qed.

Example test_unique_agent_ids :
  (IDataProvider.getAvailableAgents TestCustomDataProvider.provider Fixtures.unique_ids).1
  = Return ["agent-model-1"; "agent-model-2"].
Proof. vm_compute. reflexivity. Qed.

Example test_agent_exists :
  exists l a,
    (IDataProvider.getAgentData TestCustomDataProvider.provider "target-agent-id" None
       Fixtures.agent_exists).1 = Return (Some l)
    /\ account_at (heap Fixtures.agent_exists) l = Some a
    /\ model_id a = "target-agent-id"
    /\ positions a !! "BTC" = Some Fixtures.BTC.
Proof.
  exists 1, (Fixtures.account "agent-1" "target-agent-id" {[ "BTC" := Fixtures.BTC ]}).
  repeat split; vm_compute; reflexivity.
Qed.

Example test_different_model_id :
  (IDataProvider.getAgentData TestCustomDataProvider.provider "target-agent-id" None
     Fixtures.different_model_id).1 = Return None.
Proof. vm_compute. reflexivity. Qed.

Example test_cache_entry_with_timestamp :
  ((let* _ := TestCustomDataProvider.addCacheEntry "test-url"
                (AnyObject [("data", AnyString "test-data")]) in
    IDataProvider.getCacheStats TestCustomDataProvider.provider) Fixtures.new_provider).1
  = Return {| size := 1; entries := [{| url := "test-url"; age := 5000 |}] |}.
Proof. vm_compute. reflexivity. Qed.

(** * The claims *)

(** ** Looking up one agent *)

(** C1.  Let the receiver's [getAccountTotals(marker)] return a snapshot whose
    array holds account objects.  Then [getAgentData(agentId, marker)] returns
    normally, in the world that call left; a returned account is an element of
    that snapshot's array and its [model_id] equals [agentId] (the object is
    returned as it is, with its [positions] map); and the result is [null]
    exactly when no account of the snapshot has that [model_id]. *)
Theorem getAgentData_selects_by_model_id {Ext : Type}
    (this_getAccountTotals : option Z -> M (World Ext) DataProviderResponse)
    (agentId : string) (marker : option Z) (w w' : World Ext)
    (response : DataProviderResponse) (elems : list loc) :
  this_getAccountTotals marker w = (Return response, w') ->
  array_at (heap w') (accountTotals response) = Some elems ->
  Forall (fun l => is_Some (account_at (heap w') l)) elems ->
  exists agent,
    CustomDataProviderExample.getAgentData this_getAccountTotals agentId marker w
    = (Return agent, w')
    /\ (forall l, agent = Some l ->
          l ∈ elems /\ model_id <$> account_at (heap w') l = Some agentId)
    /\ (agent = None <->
        forall l a, l ∈ elems -> account_at (heap w') l = Some a -> model_id a <> agentId).
Proof.
  intros Hcall Harr Hwf.
  destruct (find_by_model_id w' agentId elems Hwf) as (agent & Hfind & Hsome & Hnone).
  exists agent. split; [|split; assumption].
  unfold CustomDataProviderExample.getAgentData.
  rewrite (bind_Return _ _ _ _ _ Hcall).
  rewrite (bind_Return _ _ _ _ _ (get_array_Return _ _ _ Harr)).
  rewrite (bind_Return _ _ _ _ _ Hfind).
  unfold ret. by destruct agent.
Qed.

Lemma getAgentData_selects_by_model_id_witness :
  exists agent,
    CustomDataProviderExample.getAgentData TestCustomDataProvider.getAccountTotals
      "target-agent-id" None Fixtures.agent_exists
    = (Return agent, Fixtures.agent_exists)
    /\ (forall l, agent = Some l ->
          l ∈ [1; 2]
          /\ model_id <$> account_at (heap Fixtures.agent_exists) l = Some "target-agent-id")
    /\ (agent = None <->
        forall l a, l ∈ [1; 2] -> account_at (heap Fixtures.agent_exists) l = Some a ->
                    model_id a <> "target-agent-id").
Proof.
  apply (getAgentData_selects_by_model_id TestCustomDataProvider.getAccountTotals
           "target-agent-id" None Fixtures.agent_exists Fixtures.agent_exists
           {| accountTotals := 3 |} [1; 2]).
  - vm_compute. reflexivity.
  - vm_compute. reflexivity.
  - repeat constructor; vm_compute; eexists; reflexivity.
Defined.

(** C10.  When the snapshot's array is [pre ++ l :: post], no account of [pre]
    has the requested [model_id] and the account at [l] has it, then
    [getAgentData] returns [l], whatever [post] holds: among several accounts
    with the same [model_id] the first in array order is the one returned. *)
Theorem getAgentData_returns_first_match {Ext : Type}
    (this_getAccountTotals : option Z -> M (World Ext) DataProviderResponse)
    (agentId : string) (marker : option Z) (w w' : World Ext)
    (response : DataProviderResponse) (pre post : list loc) (l : loc) (a : AgentAccount) :
  this_getAccountTotals marker w = (Return response, w') ->
  array_at (heap w') (accountTotals response) = Some (pre ++ l :: post) ->
  Forall (fun l' => exists a', account_at (heap w') l' = Some a' /\ model_id a' <> agentId)
         pre ->
  account_at (heap w') l = Some a ->
  model_id a = agentId ->
  CustomDataProviderExample.getAgentData this_getAccountTotals agentId marker w
  = (Return (Some l), w').
Proof.
  intros Hcall Harr Hpre Ha Hid.
  unfold CustomDataProviderExample.getAgentData.
  rewrite (bind_Return _ _ _ _ _ Hcall).
  rewrite (bind_Return _ _ _ _ _ (get_array_Return _ _ _ Harr)).
  rewrite (bind_Return _ _ _ _ _ (find_first_by_model_id w' agentId pre post l a Hpre Ha Hid)).
  reflexivity.
Qed.

Lemma getAgentData_returns_first_match_witness :
  CustomDataProviderExample.getAgentData TestCustomDataProvider.getAccountTotals
    "agent-model-1" (Some 12345%Z) Fixtures.unique_ids
  = (Return (Some 1), Fixtures.unique_ids).
Proof.
  apply (getAgentData_returns_first_match TestCustomDataProvider.getAccountTotals
           "agent-model-1" (Some 12345%Z) Fixtures.unique_ids Fixtures.unique_ids
           {| accountTotals := 4 |} [] [2; 3] 1
           (Fixtures.account "agent-1" "agent-model-1" ∅)).
  - vm_compute. reflexivity.
  - vm_compute. reflexivity.
  - constructor.
  - vm_compute. reflexivity.
  - reflexivity.
Defined.

(** ** Listing the agents *)

(** C3.  Let the receiver's [getAccountTotals()] return a snapshot denoting
    the accounts [accounts].  Then [getAvailableAgents()] returns a list
    without repetition whose members are exactly the [model_id]s of
    [accounts]. *)
Theorem getAvailableAgents_distinct_model_ids {Ext : Type}
    (this_getAccountTotals : option Z -> M (World Ext) DataProviderResponse)
    (w w' : World Ext) (response : DataProviderResponse) (accounts : list AgentAccount) :
  this_getAccountTotals None w = (Return response, w') ->
  snapshot_of (heap w') response = Some accounts ->
  exists agents,
    CustomDataProviderExample.getAvailableAgents this_getAccountTotals w
    = (Return agents, w')
    /\ NoDup agents
    /\ forall x, x ∈ agents <-> x ∈ model_id <$> accounts.
Proof.
  intros Hcall (elems & Harr & Hwf)%snapshot_of_Some.
  destruct (collect_model_ids w' elems accounts Hwf [] (NoDup_nil_2))
    as (agentIds & Hrun & Hnodup & Hmem).
  exists agentIds. split; [|split; [exact Hnodup|]].
  - unfold CustomDataProviderExample.getAvailableAgents.
    rewrite (bind_Return _ _ _ _ _ Hcall).
    rewrite (bind_Return _ _ _ _ _ (get_array_Return _ _ _ Harr)).
    rewrite (bind_Return _ _ _ _ _ Hrun).
    reflexivity.
  - intros x. rewrite Hmem, elem_of_nil. tauto.
Qed.

Lemma getAvailableAgents_distinct_model_ids_witness :
  exists agents,
    CustomDataProviderExample.getAvailableAgents TestCustomDataProvider.getAccountTotals
      Fixtures.unique_ids
    = (Return agents, Fixtures.unique_ids)
    /\ NoDup agents
    /\ forall x, x ∈ agents <->
                 x ∈ model_id <$> [Fixtures.account "agent-1" "agent-model-1" ∅;
                                   Fixtures.account "agent-2" "agent-model-1" ∅;
                                   Fixtures.account "agent-3" "agent-model-2" ∅].
Proof.
  apply (getAvailableAgents_distinct_model_ids TestCustomDataProvider.getAccountTotals
           Fixtures.unique_ids Fixtures.unique_ids {| accountTotals := 4 |}).
  - vm_compute. reflexivity.
  - vm_compute. reflexivity.
Defined.

(** ** The adapter *)

(** C2.  An [ApiClient] constructed with an injected provider forwards every
    operation to it: on every world, each method of the client yields the
    outcome (value or error) and the world that the provider's method of the
    same name yields for the same arguments. *)
Theorem ApiClient_forwards_to_injected_provider {W : Type}
    (API_CONFIG_BASE_URL : string) (API_CONFIG_TIMEOUT : Z)
    (Nof1DataProvider : string -> Z -> IDataProvider.t W)
    (baseUrl : option string) (timeout : option Z) (provider : IDataProvider.t W) :
  let client :=
    ApiClient.constructor API_CONFIG_BASE_URL API_CONFIG_TIMEOUT Nof1DataProvider
      baseUrl timeout (Some provider) in
  (forall marker w,
      ApiClient.getAccountTotals client marker w
      = IDataProvider.getAccountTotals provider marker w)
  /\ (forall w,
        ApiClient.getAvailableAgents client w = IDataProvider.getAvailableAgents provider w)
  /\ (forall agentId marker w,
        ApiClient.getAgentData client agentId marker w
        = IDataProvider.getAgentData provider agentId marker w)
  /\ (forall w, ApiClient.clearCache client w = IDataProvider.clearCache provider w)
  /\ (forall w, ApiClient.getCacheStats client w = IDataProvider.getCacheStats provider w).
Proof.
  intros client. subst client. unfold ApiClient.constructor. simpl.
  repeat split; intros.
  - apply bind_ret_r.
  - apply bind_ret_r.
  - apply bind_ret_r.
  - unfold ApiClient.clearCache, bind, ret. simpl.
    destruct (IDataProvider.clearCache provider w) as [[[]|e] w']; reflexivity.
Qed.

(** ** The class on its own: what its methods return *)

Section OwnMethods.
Implicit Types (w : World unit).

Lemma getAccountTotals_own (marker : option Z) w :
  exists l,
    IDataProvider.getAccountTotals CustomDataProviderExample.provider marker w
    = (Return {| accountTotals := l |}, set_heap (<[l := ArrayObject []]> (heap w)) w)
    /\ heap w !! l = None.
Proof.
  destruct (alloc_spec (ArrayObject []) w) as (l & Halloc & Hfresh & _).
  exists l. split; [|exact Hfresh]. simpl.
  unfold CustomDataProviderExample.getAccountTotals.
  rewrite (bind_Return _ _ _ _ _ Halloc). reflexivity.
Qed.

Lemma getAgentData_own (agentId : string) (marker : option Z) w :
  exists l,
    IDataProvider.getAgentData CustomDataProviderExample.provider agentId marker w
    = (Return None, set_heap (<[l := ArrayObject []]> (heap w)) w)
    /\ heap w !! l = None.
Proof.
  destruct (getAccountTotals_own marker w) as (l & Hcall & Hfresh).
  exists l. split; [|exact Hfresh]. simpl in *.
  unfold CustomDataProviderExample.getAgentData.
  rewrite (bind_Return _ _ _ _ _ Hcall).
  assert (array_at (heap (set_heap (<[l := ArrayObject []]> (heap w)) w)) l = Some [])
    as Harr by (unfold array_at; simpl; by rewrite lookup_insert_eq).
  rewrite (bind_Return _ _ _ _ _ (get_array_Return _ _ _ Harr)). reflexivity.
Qed.

Lemma getAvailableAgents_own w :
  exists l,
    IDataProvider.getAvailableAgents CustomDataProviderExample.provider w
    = (Return [], set_heap (<[l := ArrayObject []]> (heap w)) w)
    /\ heap w !! l = None.
Proof.
  destruct (getAccountTotals_own None w) as (l & Hcall & Hfresh).
  exists l. split; [|exact Hfresh]. simpl in *.
  unfold CustomDataProviderExample.getAvailableAgents.
  rewrite (bind_Return _ _ _ _ _ Hcall).
  assert (array_at (heap (set_heap (<[l := ArrayObject []]> (heap w)) w)) l = Some [])
    as Harr by (unfold array_at; simpl; by rewrite lookup_insert_eq).
  rewrite (bind_Return _ _ _ _ _ (get_array_Return _ _ _ Harr)). reflexivity.
Qed.

Lemma snapshot_of_empty_array (h : gmap loc object) (l : loc) :
  h !! l = Some (ArrayObject []) -> snapshot_of h {| accountTotals := l |} = Some [].
Proof. intros Hl. unfold snapshot_of, array_at. simpl. rewrite Hl. reflexivity. Qed.
End OwnMethods.

(** ** Repeated calls *)

(** C4.  For every world, agent identifier and marker (any integer, or none):
    two consecutive calls of [getAccountTotals] both return, their responses
    denote the same list of accounts, and the provider's fields (its cache
    among them) are after each call what they were before the first; two
    consecutive calls of [getAgentData] return the same result with the same
    fields left in place. *)
Theorem consecutive_calls_agree (agentId : string) (marker : option Z) (w : World unit) :
  (exists r1 w1 r2 w2,
      IDataProvider.getAccountTotals CustomDataProviderExample.provider marker w
      = (Return r1, w1)
      /\ IDataProvider.getAccountTotals CustomDataProviderExample.provider marker w1
         = (Return r2, w2)
      /\ snapshot_of (heap w2) r1 = snapshot_of (heap w2) r2
      /\ is_Some (snapshot_of (heap w2) r2)
      /\ this w1 = this w /\ this w2 = this w)
  /\ (exists a1 w1 a2 w2,
        IDataProvider.getAgentData CustomDataProviderExample.provider agentId marker w
        = (Return a1, w1)
        /\ IDataProvider.getAgentData CustomDataProviderExample.provider agentId marker w1
           = (Return a2, w2)
        /\ a1 = a2
        /\ this w1 = this w /\ this w2 = this w).
Proof.
  split.
  - destruct (getAccountTotals_own marker w) as (l1 & Hcall1 & Hfresh1).
    destruct (getAccountTotals_own marker (set_heap (<[l1 := ArrayObject []]> (heap w)) w))
      as (l2 & Hcall2 & Hfresh2).
    eexists _, _, _, _. split; [exact Hcall1|]. split; [exact Hcall2|].
    simpl in Hfresh2.
    assert (l1 <> l2) as Hne by (intros ->; by rewrite lookup_insert_eq in Hfresh2).
    rewrite (snapshot_of_empty_array _ l2) by (simpl; apply lookup_insert_eq).
    rewrite (snapshot_of_empty_array _ l1)
      by (simpl; rewrite lookup_insert_ne by congruence; apply lookup_insert_eq).
    repeat split. by eexists.
  - destruct (getAgentData_own agentId marker w) as (l1 & Hcall1 & _).
    destruct (getAgentData_own agentId marker (set_heap (<[l1 := ArrayObject []]> (heap w)) w))
      as (l2 & Hcall2 & _).
    eexists _, _, _, _. split; [exact Hcall1|]. split; [exact Hcall2|].
    repeat split.
Qed.

(** ** The cache *)

(** C5.  From every world, [clearCache()] returns and leaves a world in which
    [getCacheStats()] returns size 0 and no entries, and in which a second
    [clearCache()] changes nothing. *)
Theorem clearCache_empties_the_cache (w : World unit) :
  exists w1,
    IDataProvider.clearCache CustomDataProviderExample.provider w = (Return tt, w1)
    /\ IDataProvider.getCacheStats CustomDataProviderExample.provider w1
       = (Return {| size := 0; entries := [] |}, w1)
    /\ IDataProvider.clearCache CustomDataProviderExample.provider w1 = (Return tt, w1).
Proof.
  eexists. split; [reflexivity|]. split; reflexivity.
Qed.

(** The age is a difference of doubles: a timestamp of [-2^53] read at
    1700000000001 is reported with the age 9008899254740992, the double
    nearest to the exact difference. *)
Example test_age_is_subtracted_as_doubles :
  (IDataProvider.getCacheStats CustomDataProviderExample.provider
     {| heap := ∅; now := 1700000000001;
        this := {| apiEndpoint := "https://test-api.com"; apiKey := None;
                   cache := [("test-url",
                              {| data := AnyString "test-data";
                                 timestamp := Some (-9007199254740992)%float |})];
                   ext := tt |} |}).1
  = Return {| size := 1;
              entries := [{| url := "test-url"; age := 9008899254740992 |}] |}.
Proof. vm_compute. reflexivity. Qed.

(** With the recording stub on the feed with history, the account for
    "agent-model-1" at a marker is the one at location 2, taken from the
    marker's snapshot; the current snapshot would give the one at 1. *)
Example test_selection_follows_the_marker :
  (CustomDataProviderExample.getAgentData
     (RecordingProvider.getAccountTotals Fixtures.history_reply)
     "agent-model-1" (Some 12345%Z) Fixtures.history).1 = Return (Some 2)
  /\ (CustomDataProviderExample.getAgentData
        (RecordingProvider.getAccountTotals Fixtures.history_reply)
        "agent-model-1" None Fixtures.history).1 = Return (Some 1).
Proof. split; vm_compute; reflexivity. Qed.



(** ** The marker *)

Section Continuations.
Context {Ext : Type}.

(** What [getAgentData] and [getAvailableAgents] do once the snapshot has
    been fetched only reads the world. *)
Lemma read_only_after_fetch_getAgentData (agentId : string) (marker : option Z)
    (response : DataProviderResponse) :
  read_only (CustomDataProviderExample.getAgentData (Ext := Ext)
               (fun _ => ret response) agentId marker).
Proof.
  unfold CustomDataProviderExample.getAgentData.
  apply read_only_bind; [apply read_only_ret|]. intros r.
  apply read_only_bind; [apply read_only_get_array|]. intros accounts.
  apply read_only_bind; [|intros; apply read_only_ret].
  apply read_only_Array_find. intros l.
  apply read_only_bind; [apply read_only_get_model_id | intros; apply read_only_ret].
Qed.

Lemma read_only_after_fetch_getAvailableAgents (response : DataProviderResponse) :
  read_only (CustomDataProviderExample.getAvailableAgents (Ext := Ext)
               (fun _ => ret response)).
Proof.
  unfold CustomDataProviderExample.getAvailableAgents.
  apply read_only_bind; [apply read_only_ret|]. intros r.
  apply read_only_bind; [apply read_only_get_array|]. intros accounts.
  apply read_only_bind; [|intros; apply read_only_ret].
  apply read_only_for_of. intros l acc.
  apply read_only_bind; [apply read_only_get_model_id | intros; apply read_only_ret].
Qed.

(** Both methods call the receiver's [getAccountTotals] once and continue
    with the response alone. *)
Lemma getAgentData_fetch_then_select
    (this_getAccountTotals : option Z -> M (World Ext) DataProviderResponse)
    (agentId : string) (marker : option Z) (w : World Ext) :
  CustomDataProviderExample.getAgentData this_getAccountTotals agentId marker w
  = (let* response := this_getAccountTotals marker in
     CustomDataProviderExample.getAgentData (fun _ => ret response) agentId marker) w.
Proof.
  unfold CustomDataProviderExample.getAgentData, bind at 1 5.
  destruct (this_getAccountTotals marker w) as [[response|e] w']; reflexivity.
Qed.

Lemma getAvailableAgents_fetch_then_collect
    (this_getAccountTotals : option Z -> M (World Ext) DataProviderResponse)
    (w : World Ext) :
  CustomDataProviderExample.getAvailableAgents this_getAccountTotals w
  = (let* response := this_getAccountTotals None in
     CustomDataProviderExample.getAvailableAgents (fun _ => ret response)) w.
Proof.
  unfold CustomDataProviderExample.getAvailableAgents, bind at 1 5.
  destruct (this_getAccountTotals None w) as [[response|e] w']; reflexivity.
Qed.

(** The world after either method is the world the fetch left. *)
Lemma getAgentData_world
    (this_getAccountTotals : option Z -> M (World Ext) DataProviderResponse)
    (agentId : string) (marker : option Z) (w : World Ext) :
  (CustomDataProviderExample.getAgentData this_getAccountTotals agentId marker w).2
  = (this_getAccountTotals marker w).2.
Proof.
  rewrite getAgentData_fetch_then_select. apply bind_read_only_world.
  intros response. apply read_only_after_fetch_getAgentData.
Qed.

Lemma getAvailableAgents_world
    (this_getAccountTotals : option Z -> M (World Ext) DataProviderResponse)
    (w : World Ext) :
  (CustomDataProviderExample.getAvailableAgents this_getAccountTotals w).2
  = (this_getAccountTotals None w).2.
Proof.
  rewrite getAvailableAgents_fetch_then_collect. apply bind_read_only_world.
  intros response. apply read_only_after_fetch_getAvailableAgents.
Qed.
End Continuations.

(** C6.  Run against a receiver that records the markers its
    [getAccountTotals] is called with and answers each marker with its own
    array.  [getAgentData(agentId, marker)] makes one fetch, with exactly
    [marker], and selects its account from the array answered for that
    marker: a returned account is an element of it with the requested
    [model_id], and the result is [null] exactly when it has none.
    [getAvailableAgents()] makes one fetch, with no marker, and its list is
    without repetition and holds exactly the [model_id]s of the snapshot
    answered for no marker. *)
Theorem marker_is_forwarded_unchanged
    (reply : option Z -> loc) (agentId : string) (marker : option Z)
    (w : World (list (option Z))) (elems : list loc) (current : list AgentAccount) :
  array_at (heap w) (reply marker) = Some elems ->
  Forall (fun l => is_Some (account_at (heap w) l)) elems ->
  snapshot_of (heap w) {| accountTotals := reply None |} = Some current ->
  exists agent agents,
    CustomDataProviderExample.getAgentData
      (RecordingProvider.getAccountTotals reply) agentId marker w
    = (Return agent, set_ext (ext (this w) ++ [marker]) w)
    /\ (forall l, agent = Some l ->
          l ∈ elems /\ model_id <$> account_at (heap w) l = Some agentId)
    /\ (agent = None <->
        forall l a, l ∈ elems -> account_at (heap w) l = Some a -> model_id a <> agentId)
    /\ CustomDataProviderExample.getAvailableAgents
         (RecordingProvider.getAccountTotals reply) w
       = (Return agents, set_ext (ext (this w) ++ [None]) w)
    /\ NoDup agents
    /\ (forall x, x ∈ agents <-> x ∈ model_id <$> current).
Proof.
  intros Harr Hwf (elems0 & Harr0 & Hwf0)%snapshot_of_Some.
  set (w1 := set_ext (ext (this w) ++ [marker]) w).
  set (w0 := set_ext (ext (this w) ++ [None]) w).
  destruct (find_by_model_id w1 agentId elems Hwf) as (agent & Hfind & Hsome & Hnone).
  destruct (collect_model_ids w0 elems0 current Hwf0 [] (NoDup_nil_2))
    as (agents & Hrun & Hnodup & Hmem).
  exists agent, agents. repeat split; try assumption.
  - unfold CustomDataProviderExample.getAgentData.
    rewrite (bind_Return (RecordingProvider.getAccountTotals reply marker) _ w w1
               {| accountTotals := reply marker |} eq_refl).
    rewrite (bind_Return _ _ _ _ _ (get_array_Return w1 _ _ Harr)).
    rewrite (bind_Return _ _ _ _ _ Hfind). unfold ret. by destruct agent.
  - by apply Hsome.
  - by apply Hsome.
  - by apply Hnone.
  - by apply Hnone.
  - unfold CustomDataProviderExample.getAvailableAgents.
    rewrite (bind_Return (RecordingProvider.getAccountTotals reply None) _ w w0
               {| accountTotals := reply None |} eq_refl).
    rewrite (bind_Return _ _ _ _ _ (get_array_Return w0 _ _ Harr0)).
    rewrite (bind_Return _ _ _ _ _ Hrun). reflexivity.
  - intros Hx. apply Hmem in Hx as [Hx|Hx]; [by apply elem_of_nil in Hx | exact Hx].
  - intros Hx. apply Hmem. by right.
Qed.

Lemma marker_is_forwarded_unchanged_witness :
  exists agent agents,
    CustomDataProviderExample.getAgentData
      (RecordingProvider.getAccountTotals Fixtures.history_reply)
      "agent-model-1" (Some 12345%Z) Fixtures.history
    = (Return agent,
       set_ext (ext (this Fixtures.history) ++ [Some 12345%Z]) Fixtures.history)
    /\ (forall l, agent = Some l ->
          l ∈ [3; 2]
          /\ model_id <$> account_at (heap Fixtures.history) l = Some "agent-model-1")
    /\ (agent = None <->
        forall l a, l ∈ [3; 2] -> account_at (heap Fixtures.history) l = Some a ->
                    model_id a <> "agent-model-1")
    /\ CustomDataProviderExample.getAvailableAgents
         (RecordingProvider.getAccountTotals Fixtures.history_reply) Fixtures.history
       = (Return agents, set_ext (ext (this Fixtures.history) ++ [None]) Fixtures.history)
    /\ NoDup agents
    /\ (forall x, x ∈ agents <->
                  x ∈ model_id <$> [Fixtures.account "agent-1" "agent-model-1" ∅;
                                    Fixtures.account "agent-2" "agent-model-1" ∅;
                                    Fixtures.account "agent-3" "agent-model-2" ∅]).
Proof.
  apply (marker_is_forwarded_unchanged Fixtures.history_reply "agent-model-1"
           (Some 12345%Z) Fixtures.history [3; 2]).
  - vm_compute. reflexivity.
  - repeat constructor; vm_compute; eexists; reflexivity.
  - vm_compute. reflexivity.
Defined.

(** ** Frames *)

(** C7.  Every call of [getAccountTotals] returns an array at a location that
    held no object before the call, so it is distinct from every array and
    account that existed; and each of the five operations leaves every object
    that existed before it (arrays, accounts and the position maps inside
    them) exactly as it was. *)
Theorem snapshots_are_fresh_and_left_intact
    (agentId : string) (marker : option Z) (w : World unit) :
  (exists l w',
      IDataProvider.getAccountTotals CustomDataProviderExample.provider marker w
      = (Return {| accountTotals := l |}, w')
      /\ heap w !! l = None
      /\ heap w' !! l = Some (ArrayObject []))
  /\ heap w
     ⊆ heap (IDataProvider.getAccountTotals CustomDataProviderExample.provider marker w).2
  /\ heap w
     ⊆ heap (IDataProvider.getAvailableAgents CustomDataProviderExample.provider w).2
  /\ heap w
     ⊆ heap (IDataProvider.getAgentData CustomDataProviderExample.provider
               agentId marker w).2
  /\ heap w ⊆ heap (IDataProvider.clearCache CustomDataProviderExample.provider w).2
  /\ heap w ⊆ heap (IDataProvider.getCacheStats CustomDataProviderExample.provider w).2.
Proof.
  destruct (getAccountTotals_own marker w) as (l & Hcall & Hfresh).
  destruct (getAvailableAgents_own w) as (l1 & Hcall1 & Hfresh1).
  destruct (getAgentData_own agentId marker w) as (l2 & Hcall2 & Hfresh2).
  split; [|repeat split].
  - eexists _, _. split; [exact Hcall|]. split; [exact Hfresh|]. simpl. apply lookup_insert_eq.
  - rewrite Hcall. simpl. by apply insert_subseteq.
  - rewrite Hcall1. simpl. by apply insert_subseteq.
  - rewrite Hcall2. simpl. by apply insert_subseteq.
  - reflexivity.
  - reflexivity.
Qed.

(** C9.  [getAccountTotals], [getAvailableAgents], [getAgentData] and
    [getCacheStats] leave the cache as it was, for every world and every
    argument; [clearCache] leaves it empty. *)
Theorem only_clearCache_writes_the_cache
    (agentId : string) (marker : option Z) (w : World unit) :
  cache (this (IDataProvider.getAccountTotals CustomDataProviderExample.provider marker w).2)
  = cache (this w)
  /\ cache (this (IDataProvider.getAvailableAgents CustomDataProviderExample.provider w).2)
     = cache (this w)
  /\ cache (this (IDataProvider.getAgentData CustomDataProviderExample.provider
                    agentId marker w).2)
     = cache (this w)
  /\ cache (this (IDataProvider.getCacheStats CustomDataProviderExample.provider w).2)
     = cache (this w)
  /\ cache (this (IDataProvider.clearCache CustomDataProviderExample.provider w).2) = [].
Proof.
  simpl. rewrite getAvailableAgents_world, getAgentData_world.
  repeat split.
Qed.

(** * Further properties of the code *)

(** ** Failures and frames of the inherited lookups *)

(** The lookups have no handler around the fetch: when the receiver's
    [getAccountTotals(marker)] rejects, [getAgentData(agentId, marker)]
    rejects with the same error, in the world the fetch left; and when the
    receiver's [getAccountTotals()] rejects, so does [getAvailableAgents()]. *)
Theorem lookups_reject_when_the_fetch_rejects {Ext : Type}
    (this_getAccountTotals : option Z -> M (World Ext) DataProviderResponse)
    (agentId : string) (marker : option Z) (w : World Ext) :
  (forall e w',
      this_getAccountTotals marker w = (Throw e, w') ->
      CustomDataProviderExample.getAgentData this_getAccountTotals agentId marker w
      = (Throw e, w'))
  /\ (forall e w',
        this_getAccountTotals None w = (Throw e, w') ->
        CustomDataProviderExample.getAvailableAgents this_getAccountTotals w
        = (Throw e, w')).
Proof.
  split; intros e w' Hfetch.
  - rewrite getAgentData_fetch_then_select. unfold bind at 1. by rewrite Hfetch.
  - rewrite getAvailableAgents_fetch_then_collect. unfold bind at 1. by rewrite Hfetch.
Qed.

(** A receiver that rejects only when given a marker, and one that rejects
    only when given none. *)
Lemma lookups_reject_when_the_fetch_rejects_witness :
  CustomDataProviderExample.getAgentData
    (fun marker =>
       match marker with
       | Some _ => throw (Rejected "HTTP 503")
       | None => CustomDataProviderExample.getAccountTotals None
       end)
    "agent-1" (Some 7%Z) Fixtures.provider
  = (Throw (Rejected "HTTP 503"), Fixtures.provider)
  /\ CustomDataProviderExample.getAvailableAgents
       (fun marker =>
          match marker with
          | Some _ => CustomDataProviderExample.getAccountTotals marker
          | None => throw (Rejected "HTTP 503")
          end)
       Fixtures.provider
     = (Throw (Rejected "HTTP 503"), Fixtures.provider).
Proof.
  split.
  - apply (proj1 (lookups_reject_when_the_fetch_rejects
                    (fun marker =>
                       match marker with
                       | Some _ => throw (Rejected "HTTP 503")
                       | None => CustomDataProviderExample.getAccountTotals None
                       end)
                    "agent-1" (Some 7%Z) Fixtures.provider)).
    reflexivity.
  - apply (proj2 (lookups_reject_when_the_fetch_rejects
                    (fun marker =>
                       match marker with
                       | Some _ => CustomDataProviderExample.getAccountTotals marker
                       | None => throw (Rejected "HTTP 503")
                       end)
                    "agent-1" None Fixtures.provider)).
    reflexivity.
Defined.

(** Whatever the receiver's [getAccountTotals] does and whatever the outcome,
    the lookups add no effect of their own: the world after [getAgentData] or
    [getAvailableAgents] (heap, clock, cache and the other fields) is the
    world their one fetch left. *)
Theorem lookups_add_no_effect {Ext : Type}
    (this_getAccountTotals : option Z -> M (World Ext) DataProviderResponse)
    (agentId : string) (marker : option Z) (w : World Ext) :
  (CustomDataProviderExample.getAgentData this_getAccountTotals agentId marker w).2
  = (this_getAccountTotals marker w).2
  /\ (CustomDataProviderExample.getAvailableAgents this_getAccountTotals w).2
     = (this_getAccountTotals None w).2.
Proof.
  split; [apply getAgentData_world | apply getAvailableAgents_world].
Qed.

(** ** The order of the agent list *)

Lemma Set_add_cases (value : string) (s : list string) :
  Set_add value s = if decide (value ∈ s) then s else s ++ [value].
Proof.
  unfold Set_add. destruct (existsb (String.eqb value) s) eqn:Hmem.
  - apply existsb_exists in Hmem as (y & Hy & Heq).
    apply String.eqb_eq in Heq as <-. apply list_elem_of_In in Hy.
    by rewrite decide_True.
  - rewrite decide_False; [reflexivity|]. intros Hin.
    assert (existsb (String.eqb value) s = true) as Habs; [|congruence].
    apply existsb_exists. exists value.
    split; [by apply list_elem_of_In | apply String.eqb_refl].
Qed.

(** Adding the values one by one keeps, for each value, its first appearance. *)
Lemma Set_from_first_appearances (values : list string) :
  Set_from values = reverse (remove_dups (reverse values)).
Proof.
  unfold Set_from. induction values as [|value values IH] using rev_ind; [reflexivity|].
  rewrite foldl_app. simpl. rewrite IH, Set_add_cases, reverse_snoc. simpl.
  destruct (decide_rel elem_of value (reverse values)) as [Hin|Hnotin].
  - rewrite decide_True; [reflexivity|]. by rewrite elem_of_reverse, elem_of_remove_dups.
  - rewrite decide_False; [by rewrite reverse_cons|].
    by rewrite elem_of_reverse, elem_of_remove_dups.
Qed.

Section Scans.
Context {Ext : Type}.
Implicit Types (w : World Ext) (elems : list loc) (accounts : list AgentAccount).

Lemma for_of_Set_add w elems accounts :
  Forall2 (fun l a => account_at (heap w) l = Some a) elems accounts ->
  forall acc,
    for_of elems (fun account agentIds =>
                    let* model_id := get_model_id account in
                    ret (Set_add model_id agentIds)) acc w
    = (Return (foldl (fun s value => Set_add value s) acc (model_id <$> accounts)), w).
Proof.
  induction 1 as [|l a elems accounts Ha _ IH]; intros acc; cbn [for_of]; [reflexivity|].
  assert ((let* model_id := get_model_id l in ret (Set_add model_id acc)) w
          = (Return (Set_add (model_id a) acc), w)) as Hbody.
  { unfold bind, get_model_id, ret. rewrite Ha. reflexivity. }
  rewrite (bind_Return _ _ _ _ _ Hbody). apply IH.
Qed.

Lemma Array_map_model_id w elems accounts :
  Forall2 (fun l a => account_at (heap w) l = Some a) elems accounts ->
  Array_map (fun a => get_model_id a) elems w = (Return (model_id <$> accounts), w).
Proof.
  induction 1 as [|l a elems accounts Ha _ IH]; cbn [Array_map]; [reflexivity|].
  assert (get_model_id l w = (Return (model_id a), w)) as Hhead.
  { unfold get_model_id, ret. rewrite Ha. reflexivity. }
  rewrite (bind_Return _ _ _ _ _ Hhead), (bind_Return _ _ _ _ _ IH). reflexivity.
Qed.

(** References and the accounts they denote match position by position. *)
Lemma denoted_model_ids w elems accounts (agentId : string) :
  Forall2 (fun l a => account_at (heap w) l = Some a) elems accounts ->
  agentId ∈ model_id <$> accounts
  <-> exists l a, l ∈ elems /\ account_at (heap w) l = Some a /\ model_id a = agentId.
Proof.
  intros Hwf. rewrite list_elem_of_fmap. split.
  - intros (a & -> & (i & Hi)%list_elem_of_lookup).
    destruct (Forall2_lookup_r _ _ _ _ _ Hwf Hi) as (l & Hl & Ha).
    exists l, a. split; [by eapply list_elem_of_lookup_2 | by split].
  - intros (l & a & (i & Hi)%list_elem_of_lookup & Ha & <-).
    destruct (Forall2_lookup_l _ _ _ _ _ Hwf Hi) as (a' & Hi' & Ha').
    exists a. split; [reflexivity|].
    assert (a' = a) as -> by congruence. by eapply list_elem_of_lookup_2.
Qed.
End Scans.

(** [getAvailableAgents] lists the [model_id]s in the order in which they
    first appear in the snapshot: the list is the [model_id]s of the accounts
    with every later repetition removed. *)
Theorem getAvailableAgents_in_order_of_first_appearance {Ext : Type}
    (this_getAccountTotals : option Z -> M (World Ext) DataProviderResponse)
    (w w' : World Ext) (response : DataProviderResponse) (accounts : list AgentAccount) :
  this_getAccountTotals None w = (Return response, w') ->
  snapshot_of (heap w') response = Some accounts ->
  CustomDataProviderExample.getAvailableAgents this_getAccountTotals w
  = (Return (reverse (remove_dups (reverse (model_id <$> accounts)))), w').
Proof.
  intros Hcall (elems & Harr & Hwf)%snapshot_of_Some.
  unfold CustomDataProviderExample.getAvailableAgents.
  rewrite (bind_Return _ _ _ _ _ Hcall).
  rewrite (bind_Return _ _ _ _ _ (get_array_Return _ _ _ Harr)).
  rewrite (bind_Return _ _ _ _ _ (for_of_Set_add w' elems accounts Hwf [])).
  unfold ret, Array_from. by rewrite <- Set_from_first_appearances.
Qed.

Lemma getAvailableAgents_in_order_of_first_appearance_witness :
  CustomDataProviderExample.getAvailableAgents TestCustomDataProvider.getAccountTotals
    Fixtures.unique_ids
  = (Return (reverse (remove_dups (reverse
       (model_id <$> [Fixtures.account "agent-1" "agent-model-1" ∅;
                      Fixtures.account "agent-2" "agent-model-1" ∅;
                      Fixtures.account "agent-3" "agent-model-2" ∅])))),
     Fixtures.unique_ids).
Proof.
  apply (getAvailableAgents_in_order_of_first_appearance
           TestCustomDataProvider.getAccountTotals
           Fixtures.unique_ids Fixtures.unique_ids {| accountTotals := 4 |}).
  - vm_compute. reflexivity.
  - vm_compute. reflexivity.
Defined.

(** The provider sketched in the documentation lists the agents as the
    example class does: on a snapshot of accounts, building a set from the
    mapped [model_id]s gives the list that the loop with [add] gives. *)
Theorem documented_getAvailableAgents_agrees {Ext : Type}
    (this_getAccountTotals : option Z -> M (World Ext) DataProviderResponse)
    (w w' : World Ext) (response : DataProviderResponse) (accounts : list AgentAccount) :
  this_getAccountTotals None w = (Return response, w') ->
  snapshot_of (heap w') response = Some accounts ->
  MyCustomDataProvider.getAvailableAgents this_getAccountTotals w
  = CustomDataProviderExample.getAvailableAgents this_getAccountTotals w.
Proof.
  intros Hcall (elems & Harr & Hwf)%snapshot_of_Some.
  unfold MyCustomDataProvider.getAvailableAgents,
    CustomDataProviderExample.getAvailableAgents.
  rewrite !(bind_Return _ _ _ _ _ Hcall).
  rewrite !(bind_Return _ _ _ _ _ (get_array_Return _ _ _ Harr)).
  rewrite (bind_Return _ _ _ _ _ (Array_map_model_id w' elems accounts Hwf)).
  rewrite (bind_Return _ _ _ _ _ (for_of_Set_add w' elems accounts Hwf [])).
  reflexivity.
Qed.

Lemma documented_getAvailableAgents_agrees_witness :
  MyCustomDataProvider.getAvailableAgents TestCustomDataProvider.getAccountTotals
    Fixtures.unique_ids
  = CustomDataProviderExample.getAvailableAgents TestCustomDataProvider.getAccountTotals
      Fixtures.unique_ids.
Proof.
  apply (documented_getAvailableAgents_agrees TestCustomDataProvider.getAccountTotals
           Fixtures.unique_ids Fixtures.unique_ids {| accountTotals := 4 |}
           [Fixtures.account "agent-1" "agent-model-1" ∅;
            Fixtures.account "agent-2" "agent-model-1" ∅;
            Fixtures.account "agent-3" "agent-model-2" ∅]).
  - vm_compute. reflexivity.
  - vm_compute. reflexivity.
Defined.

(** ** Listing and fetching together *)

(** When the receiver's [getAccountTotals] returns, without a marker and with
    [marker], snapshots that denote the same accounts, an identifier is in the
    list of [getAvailableAgents()] exactly when [getAgentData] returns an
    account for it. *)
Theorem listed_agents_are_the_fetchable_ones {Ext : Type}
    (this_getAccountTotals : option Z -> M (World Ext) DataProviderResponse)
    (agentId : string) (marker : option Z) (w w0 w1 : World Ext)
    (r0 r1 : DataProviderResponse) (accounts : list AgentAccount) :
  this_getAccountTotals None w = (Return r0, w0) ->
  snapshot_of (heap w0) r0 = Some accounts ->
  this_getAccountTotals marker w = (Return r1, w1) ->
  snapshot_of (heap w1) r1 = Some accounts ->
  exists agents agent,
    CustomDataProviderExample.getAvailableAgents this_getAccountTotals w
    = (Return agents, w0)
    /\ CustomDataProviderExample.getAgentData this_getAccountTotals agentId marker w
       = (Return agent, w1)
    /\ (agentId ∈ agents <-> is_Some agent).
Proof.
  intros Hcall0 (elems0 & Harr0 & Hwf0)%snapshot_of_Some
         Hcall1 (elems1 & Harr1 & Hwf1)%snapshot_of_Some.
  destruct (collect_model_ids w0 elems0 accounts Hwf0 [] (NoDup_nil_2))
    as (agents & Hrun & _ & Hmem).
  assert (Forall (fun l => is_Some (account_at (heap w1) l)) elems1) as Hsome.
  { apply Forall_lookup. intros i l Hl.
    destruct (Forall2_lookup_l _ _ _ _ _ Hwf1 Hl) as (a & _ & Ha). by exists a. }
  destruct (find_by_model_id w1 agentId elems1 Hsome) as (agent & Hfind & Hfound & Hnone).
  exists agents, agent. split; [|split].
  - unfold CustomDataProviderExample.getAvailableAgents.
    rewrite (bind_Return _ _ _ _ _ Hcall0).
    rewrite (bind_Return _ _ _ _ _ (get_array_Return _ _ _ Harr0)).
    rewrite (bind_Return _ _ _ _ _ Hrun). reflexivity.
  - unfold CustomDataProviderExample.getAgentData.
    rewrite (bind_Return _ _ _ _ _ Hcall1).
    rewrite (bind_Return _ _ _ _ _ (get_array_Return _ _ _ Harr1)).
    rewrite (bind_Return _ _ _ _ _ Hfind). unfold ret. by destruct agent.
  - rewrite Hmem, (denoted_model_ids w1 elems1 accounts agentId Hwf1), elem_of_nil.
    destruct agent as [l|].
    + split; [by eexists|]. intros _. right.
      destruct (Hfound l eq_refl) as [Hl Hid].
      destruct (account_at (heap w1) l) as [a|] eqn:Ha; [|done].
      exists l, a. split; [exact Hl|]. split; [exact Ha|]. by injection Hid.
    + split; [|by intros [? ?]]. intros [[]|(l & a & Hl & Ha & Hid)].
      exfalso. by apply (proj1 Hnone eq_refl l a Hl Ha).
Qed.

Lemma listed_agents_are_the_fetchable_ones_witness :
  exists agents agent,
    CustomDataProviderExample.getAvailableAgents TestCustomDataProvider.getAccountTotals
      Fixtures.unique_ids
    = (Return agents, Fixtures.unique_ids)
    /\ CustomDataProviderExample.getAgentData TestCustomDataProvider.getAccountTotals
         "agent-model-2" (Some 12345%Z) Fixtures.unique_ids
       = (Return agent, Fixtures.unique_ids)
    /\ ("agent-model-2" ∈ agents <-> is_Some agent).
Proof.
  apply (listed_agents_are_the_fetchable_ones TestCustomDataProvider.getAccountTotals
           "agent-model-2" (Some 12345%Z)
           Fixtures.unique_ids Fixtures.unique_ids Fixtures.unique_ids
           {| accountTotals := 4 |} {| accountTotals := 4 |}
           [Fixtures.account "agent-1" "agent-model-1" ∅;
            Fixtures.account "agent-2" "agent-model-1" ∅;
            Fixtures.account "agent-3" "agent-model-2" ∅]).
  - vm_compute. reflexivity.
  - vm_compute. reflexivity.
  - vm_compute. reflexivity.
  - vm_compute. reflexivity.
Defined.

(** ** The adapter without an injected provider, and around the example *)

(** Constructed without a provider, an [ApiClient] forwards every operation
    to [new Nof1DataProvider(baseUrl, timeout)], where an omitted [baseUrl] or
    [timeout] is replaced by the value in [API_CONFIG] and a given one is
    passed on as it is. *)
Theorem ApiClient_defaults_to_Nof1DataProvider {W : Type}
    (API_CONFIG_BASE_URL : string) (API_CONFIG_TIMEOUT : Z)
    (Nof1DataProvider : string -> Z -> IDataProvider.t W)
    (baseUrl : option string) (timeout : option Z) :
  let client :=
    ApiClient.constructor API_CONFIG_BASE_URL API_CONFIG_TIMEOUT Nof1DataProvider
      baseUrl timeout None in
  let nof1 :=
    Nof1DataProvider
      (match baseUrl with Some given => given | None => API_CONFIG_BASE_URL end)
      (match timeout with Some given => given | None => API_CONFIG_TIMEOUT end) in
  (forall marker w,
      ApiClient.getAccountTotals client marker w
      = IDataProvider.getAccountTotals nof1 marker w)
  /\ (forall w, ApiClient.getAvailableAgents client w = IDataProvider.getAvailableAgents nof1 w)
  /\ (forall agentId marker w,
        ApiClient.getAgentData client agentId marker w
        = IDataProvider.getAgentData nof1 agentId marker w)
  /\ (forall w, ApiClient.clearCache client w = IDataProvider.clearCache nof1 w)
  /\ (forall w, ApiClient.getCacheStats client w = IDataProvider.getCacheStats nof1 w).
Proof.
  intros client nof1. subst client nof1. unfold ApiClient.constructor.
  destruct baseUrl, timeout; simpl; repeat split; intros.
  all: first
    [ apply bind_ret_r
    | unfold ApiClient.clearCache, bind, ret; simpl;
      destruct (IDataProvider.clearCache _ _) as [[[]|e] w']; reflexivity ].
Qed.

(** The example provider as shipped exposes nothing: through an [ApiClient],
    in every world and for every identifier and marker, the agent list is
    empty, no agent is found, and the snapshot denotes no account. *)
Theorem shipped_example_exposes_no_agent
    (API_CONFIG_BASE_URL : string) (API_CONFIG_TIMEOUT : Z)
    (Nof1DataProvider : string -> Z -> IDataProvider.t (World unit))
    (baseUrl : option string) (timeout : option Z)
    (agentId : string) (marker : option Z) (w : World unit) :
  let apiClient :=
    ApiClient.constructor API_CONFIG_BASE_URL API_CONFIG_TIMEOUT Nof1DataProvider
      baseUrl timeout (Some CustomDataProviderExample.provider) in
  (ApiClient.getAvailableAgents apiClient w).1 = Return []
  /\ (ApiClient.getAgentData apiClient agentId marker w).1 = Return None
  /\ exists response w',
       ApiClient.getAccountTotals apiClient marker w = (Return response, w')
       /\ snapshot_of (heap w') response = Some [].
Proof.
  intros apiClient. subst apiClient. unfold ApiClient.constructor. cbn [ApiClient.dataProvider].
  unfold ApiClient.getAvailableAgents, ApiClient.getAgentData, ApiClient.getAccountTotals.
  cbn [ApiClient.dataProvider]. rewrite !bind_ret_r.
  destruct (getAvailableAgents_own w) as (l0 & -> & _).
  destruct (getAgentData_own agentId marker w) as (l1 & -> & _).
  destruct (getAccountTotals_own marker w) as (l2 & Hcall & _).
  split; [reflexivity|]. split; [reflexivity|].
  eexists _, _. split; [exact Hcall|].
  apply snapshot_of_empty_array. simpl. apply lookup_insert_eq.
Qed.

(** ** The test double *)

(** A [TestCustomDataProvider] just constructed, in any heap: the objects of
    that heap are kept, the cache is empty, the agent list is empty and no
    agent is found. *)
Theorem new_test_double_has_no_agent
    (apiEndpoint : string) (apiKey : option string) (h : gmap loc object) (clock : float)
    (agentId : string) (marker : option Z) :
  let constructed := TestCustomDataProvider.constructor apiEndpoint apiKey h in
  let w := {| heap := constructed.1; now := clock; this := constructed.2 |} in
  h ⊆ heap w
  /\ cache (this w) = []
  /\ IDataProvider.getAvailableAgents TestCustomDataProvider.provider w = (Return [], w)
  /\ IDataProvider.getAgentData TestCustomDataProvider.provider agentId marker w
     = (Return None, w).
Proof.
  intros constructed w. subst constructed. simpl in w.
  assert (h !! fresh (dom h) = None) as Hfresh by (apply not_elem_of_dom, is_fresh).
  assert (array_at (heap w) (fresh (dom h)) = Some []) as Harr.
  { unfold array_at. subst w. simpl. by rewrite lookup_insert_eq. }
  split; [by apply insert_subseteq|]. split; [reflexivity|]. simpl. split.
  - unfold CustomDataProviderExample.getAvailableAgents.
    erewrite bind_Return by reflexivity.
    rewrite (bind_Return _ _ _ _ _ (get_array_Return _ _ _ Harr)). reflexivity.
  - unfold CustomDataProviderExample.getAgentData.
    erewrite bind_Return by reflexivity.
    rewrite (bind_Return _ _ _ _ _ (get_array_Return _ _ _ Harr)). reflexivity.
Qed.

(** ** Writing to the cache *)

Section MapFacts.
Context {V : Type}.
Implicit Types (m : list (string * V)) (key : string) (value : V).

Lemma Map_set_keys key value m :
  (Map_set key value m).*1 = if decide (key ∈ m.*1) then m.*1 else m.*1 ++ [key].
Proof.
  induction m as [|[key' value'] m IH]; [reflexivity|].
  cbn [Map_set]. destruct (String.eqb_spec key' key) as [->|Hne].
  - rewrite decide_True; [reflexivity | rewrite fmap_cons; left].
  - rewrite !fmap_cons, IH. cbn [fst].
    destruct (decide (key ∈ m.*1)) as [Hin|Hnotin].
    + rewrite decide_True; [reflexivity | by right].
    + rewrite decide_False; [reflexivity|].
      intros [->|?]%elem_of_cons; [by apply Hne | done].
Qed.

Lemma Map_set_elem key value m : (key, value) ∈ Map_set key value m.
Proof.
  induction m as [|[key' value'] m IH]; simpl; [left|].
  destruct (String.eqb_spec key' key) as [->|Hne]; [left | by right].
Qed.

Lemma Map_set_other key value m key' value' :
  key' <> key -> (key', value') ∈ Map_set key value m <-> (key', value') ∈ m.
Proof.
  intros Hne. induction m as [|[k v] m IH]; simpl.
  - rewrite list_elem_of_singleton, elem_of_nil. split; [congruence | done].
  - destruct (String.eqb_spec k key) as [->|Hk].
    + rewrite !elem_of_cons. split; (intros [Heq|?]; [congruence | by right]).
    + rewrite !elem_of_cons, IH. tauto.
Qed.

Lemma NoDup_Map_set key value m : NoDup m.*1 -> NoDup (Map_set key value m).*1.
Proof.
  intros Hm. rewrite Map_set_keys. destruct (decide (key ∈ m.*1)); [exact Hm|].
  apply NoDup_app. split; [exact Hm|]. split; [|apply NoDup_singleton].
  by intros x Hx ->%list_elem_of_singleton.
Qed.

Lemma unique_keys_unique_values m key value value' :
  NoDup m.*1 -> (key, value) ∈ m -> (key, value') ∈ m -> value = value'.
Proof.
  induction m as [|[k v] m IH]; simpl; [by intros _ ?%elem_of_nil|].
  intros [Hk Hm]%NoDup_cons [Heq|Hin]%elem_of_cons [Heq'|Hin']%elem_of_cons.
  - congruence.
  - injection Heq as -> ->. destruct Hk. apply list_elem_of_fmap. by exists (k, value').
  - injection Heq' as -> ->. destruct Hk. apply list_elem_of_fmap. by exists (k, value).
  - by apply IH.
Qed.
End MapFacts.

(** [addCacheEntry] keeps the cached URLs distinct and in place: the list of
    URLs is unchanged when the URL was cached and gets the URL at its end
    otherwise; the URL's entry is the new one, stamped five seconds before the
    clock; and the entries of the other URLs are exactly the ones there were. *)
Theorem addCacheEntry_keeps_urls_distinct
    (cached_url : string) (data : any) (w : World TestCustomDataProvider.Ext) :
  NoDup (cache (this w)).*1 ->
  let cache' := cache (this (TestCustomDataProvider.addCacheEntry cached_url data w).2) in
  NoDup cache'.*1
  /\ cache'.*1 = (if decide (cached_url ∈ (cache (this w)).*1)
                  then (cache (this w)).*1
                  else (cache (this w)).*1 ++ [cached_url])
  /\ (forall entry,
        (cached_url, entry) ∈ cache'
        <-> entry = {| data := data; timestamp := Some (now w - 5000)%float |})
  /\ (forall other entry,
        other <> cached_url ->
        (other, entry) ∈ cache' <-> (other, entry) ∈ cache (this w)).
Proof.
  intros Hnodup cache'. subst cache'. simpl.
  split; [by apply NoDup_Map_set|]. split; [apply Map_set_keys|]. split.
  - intros entry. split.
    + intros Hin. eapply unique_keys_unique_values;
        [by apply NoDup_Map_set | exact Hin | apply Map_set_elem].
    + intros ->. apply Map_set_elem.
  - intros other entry Hne. by apply Map_set_other.
Qed.

Lemma addCacheEntry_keeps_urls_distinct_witness :
  let cache' :=
    cache (this (TestCustomDataProvider.addCacheEntry "other-url" (AnyNumber 1)
                   Fixtures.one_cached_url).2) in
  NoDup cache'.*1
  /\ cache'.*1 = (if decide ("other-url" ∈ (cache (this Fixtures.one_cached_url)).*1)
                  then (cache (this Fixtures.one_cached_url)).*1
                  else (cache (this Fixtures.one_cached_url)).*1 ++ ["other-url"])
  /\ (forall entry,
        ("other-url", entry) ∈ cache'
        <-> entry = {| data := AnyNumber 1;
                       timestamp := Some (now Fixtures.one_cached_url - 5000)%float |})
  /\ (forall other entry,
        other <> "other-url" ->
        (other, entry) ∈ cache' <-> (other, entry) ∈ cache (this Fixtures.one_cached_url)).
Proof.
  apply (addCacheEntry_keeps_urls_distinct "other-url" (AnyNumber 1)
           Fixtures.one_cached_url).
  vm_compute. apply NoDup_singleton.
Defined.

(** After [addCacheEntry(url, data)] at the clock reading [now], stored with
    a timestamp [now - 5000] that is neither zero nor [NaN], [getCacheStats]
    at the reading [now'] reports one more entry than were cached if the URL
    is new and as many otherwise, and it reports the URL, every time it
    reports it, with the age [now' - (now - 5000)], subtracted as doubles. *)
Theorem added_entry_is_reported_with_its_age
    (cached_url : string) (data : any) (now' : float)
    (w : World TestCustomDataProvider.Ext) :
  NoDup (cache (this w)).*1 ->
  falsy (now w - 5000) = false ->
  let w' := clock_reads now' (TestCustomDataProvider.addCacheEntry cached_url data w).2 in
  exists stats,
    IDataProvider.getCacheStats TestCustomDataProvider.provider w' = (Return stats, w')
    /\ size stats
       = (if decide (cached_url ∈ (cache (this w)).*1)
          then Z.of_nat (length (cache (this w)))
          else Z.of_nat (length (cache (this w))) + 1)%Z
    /\ (exists reported, reported ∈ entries stats /\ url reported = cached_url)
    /\ (forall reported,
          reported ∈ entries stats -> url reported = cached_url ->
          age reported = (now' - (now w - 5000))%float).
Proof.
  intros Hnodup Htruthy w'. subst w'. eexists. split; [reflexivity|]. simpl.
  unfold Map_size, Map_entries.
  set (entry := {| data := data; timestamp := Some (now w - 5000)%float |}).
  split; [|split].
  - rewrite <- (length_fmap fst (Map_set cached_url entry (cache (this w)))).
    rewrite Map_set_keys. destruct (decide (cached_url ∈ (cache (this w)).*1)).
    + by rewrite length_fmap.
    + rewrite length_app, length_fmap. simpl. lia.
  - eexists. split.
    + apply list_elem_of_fmap. exists (cached_url, entry).
      split; [reflexivity | apply Map_set_elem].
    + reflexivity.
  - intros reported ([key entry'] & -> & Hin)%list_elem_of_fmap Hurl.
    cbn [url] in Hurl. subst key.
    assert (entry' = entry) as ->.
    { eapply unique_keys_unique_values;
        [by apply NoDup_Map_set | exact Hin | apply Map_set_elem]. }
    cbn [age timestamp entry]. by rewrite (or_0_truthy _ Htruthy).
Qed.

Lemma added_entry_is_reported_with_its_age_witness :
  let w' :=
    clock_reads 1700000000250
      (TestCustomDataProvider.addCacheEntry "test-url" (AnyNumber 1)
         Fixtures.one_cached_url).2 in
  exists stats,
    IDataProvider.getCacheStats TestCustomDataProvider.provider w' = (Return stats, w')
    /\ size stats
       = (if decide ("test-url" ∈ (cache (this Fixtures.one_cached_url)).*1)
          then Z.of_nat (length (cache (this Fixtures.one_cached_url)))
          else Z.of_nat (length (cache (this Fixtures.one_cached_url))) + 1)%Z
    /\ (exists reported, reported ∈ entries stats /\ url reported = "test-url")
    /\ (forall reported,
          reported ∈ entries stats -> url reported = "test-url" ->
          age reported = (1700000000250 - (now Fixtures.one_cached_url - 5000))%float).
Proof.
  apply (added_entry_is_reported_with_its_age "test-url" (AnyNumber 1) 1700000000250
           Fixtures.one_cached_url).
  - vm_compute. apply NoDup_singleton.
  - vm_compute. reflexivity.
Defined.

(** The loop of the cache test: one round or more of [getCacheStats()]
    followed by [clearCache()] ends in the world that a single [clearCache()]
    gives, in which the cache is empty; no round at all changes nothing. *)
Theorem cache_operations_amount_to_one_clearCache (n : nat) (w : World unit) :
  cache_operations CustomDataProviderExample.provider (S n) w
  = IDataProvider.clearCache CustomDataProviderExample.provider w
  /\ cache (this (cache_operations CustomDataProviderExample.provider (S n) w).2) = []
  /\ cache_operations CustomDataProviderExample.provider 0 w = (Return tt, w).
Proof.
  assert (forall k (u : World unit),
             cache_operations CustomDataProviderExample.provider (S k) u
             = IDataProvider.clearCache CustomDataProviderExample.provider u) as Hloop.
  { induction k as [|k IH]; intros u; [reflexivity|].
    unfold cache_operations in *.
    change (for_count (S (S k)) ?body) with (let* _ := body in for_count (S k) body).
    erewrite bind_Return by reflexivity. rewrite IH. reflexivity. }
  split; [apply Hloop|]. split; [by rewrite Hloop | reflexivity].
Qed.
